(** * python-memegen: the MCP tool server of [main.py]

    A shallow embedding of the bearer-token gate, the [validate] and
    [add_numbers] tools and the [generate_meme] tool, followed by the
    properties of the specification that concern them.

    Conventions.
    - A Python [str] is a [string]; a Python [int] is a [Z]; a Python
      [float] is a binary64 [float] and [+] on floats is [PrimFloat.add].
    - The object returned by [await resp.json()] is a [pyvalue]: what
      [json.loads] builds ([None], [bool], [int], [float], [str], [list],
      [dict] with [str] keys, in insertion order).
    - [aiohttp] is outside the repository.  A network is an oracle from the
      request to what the call does: it raises, or it yields a response
      with a status and the outcomes of [await resp.text()] and
      [await resp.json()].  Requests are appended to a log, which is the
      state threaded through the [IO] monad.
    - [repr] of a float and of a string belong to the Python runtime; they
      are the two fields of [PyRuntime].  Every theorem holds for every
      runtime; [cpython] is an instance to compute examples with. *)

From Stdlib Require Import String Ascii ZArith List Bool Lia.
From Stdlib Require Import Floats DecimalString.
Import ListNotations.
Local Open Scope string_scope.

(** ** Python values *)

#[warnings="-register-all"]
Inductive pyvalue : Type :=
| PyNone
| PyBool (b : bool)
| PyInt (z : Z)
| PyFloat (f : float)
| PyStr (s : string)
| PyList (l : list pyvalue)
| PyDict (d : list (string * pyvalue)).

Class PyRuntime : Type := {
  (** [repr(x)] for a float [x] *)
  float_repr : float -> string;
  (** [repr(s)] for a str [s] *)
  str_repr : string -> string
}.

(** [sep.join(l)] *)
Fixpoint join (sep : string) (l : list string) : string :=
  match l with
  | [] => ""
  | [x] => x
  | x :: l' => x ++ sep ++ join sep l'
  end.

(** [str(z)] for an int [z] *)
Definition int_str (z : Z) : string := NilZero.string_of_int (Z.to_int z).

(** [bool(v)]: the truth value that [not v] and [if v] test *)
Definition truthy (v : pyvalue) : bool :=
  match v with
  | PyNone => false
  | PyBool b => b
  | PyInt z => negb (z =? 0)%Z
  | PyFloat f => negb (PrimFloat.eqb f 0%float)
  | PyStr s => negb (s =? "")
  | PyList l => match l with [] => false | _ :: _ => true end
  | PyDict d => match d with [] => false | _ :: _ => true end
  end.

(** [type(v).__name__] *)
Definition type_name (v : pyvalue) : string :=
  match v with
  | PyNone => "NoneType"
  | PyBool _ => "bool"
  | PyInt _ => "int"
  | PyFloat _ => "float"
  | PyStr _ => "str"
  | PyList _ => "list"
  | PyDict _ => "dict"
  end.

(** The value stored under [k] in the entries of a dict, if any *)
Fixpoint dict_lookup (k : string) (d : list (string * pyvalue)) : option pyvalue :=
  match d with
  | [] => None
  | (k', v) :: d' => if (k =? k') then Some v else dict_lookup k d'
  end.

(** [d.get(k, default)] on the entries of a dict *)
Definition dict_get (d : list (string * pyvalue)) (k : string) (default : pyvalue)
  : pyvalue :=
  match dict_lookup k d with
  | Some x => x
  | None => default
  end.

Section Rendering.
Context {R : PyRuntime}.

(** [repr(v)] *)
Fixpoint py_repr (v : pyvalue) : string :=
  match v with
  | PyNone => "None"
  | PyBool true => "True"
  | PyBool false => "False"
  | PyInt z => int_str z
  | PyFloat f => float_repr f
  | PyStr s => str_repr s
  | PyList l => "[" ++ join ", " (map py_repr l) ++ "]"
  | PyDict d =>
      "{" ++ join ", " (map (fun kv => str_repr (fst kv) ++ ": " ++ py_repr (snd kv)) d) ++ "}"
  end.

(** [str(v)], which is what a replacement field [{v}] of an f-string
    inserts: the string itself for a str, [repr(v)] for the rest *)
Definition py_str (v : pyvalue) : string :=
  match v with
  | PyStr s => s
  | _ => py_repr v
  end.
End Rendering.

(** ** A reference runtime

    [repr] as CPython 3 computes it.  For a str: the quote is ['] unless
    the string has a ['] and no double quote; backslash, the quote, tab,
    line feed, carriage return and the other ASCII control characters are
    escaped; the bytes of a non-ASCII character are copied (CPython escapes
    those that are not printable, which needs the Unicode database).  For a
    float: the shortest decimal string that rounds back to the float, the
    nearest to it among those of that length (half-way cases to the even
    digit), in exponent form when the decimal point is not within
    [-4 < p <= 16]. *)

Module CPython.

(** *** repr of a str *)

Fixpoint has_char (c : ascii) (s : string) : bool :=
  match s with
  | EmptyString => false
  | String c' s' => (c =? c')%char || has_char c s'
  end.

Definition hex_digit (n : nat) : ascii :=
  nth n ["0"; "1"; "2"; "3"; "4"; "5"; "6"; "7"; "8"; "9";
         "a"; "b"; "c"; "d"; "e"; "f"]%char "0"%char.

Definition escape_char (quote c : ascii) : string :=
  let n := nat_of_ascii c in
  if (c =? "\")%char || (c =? quote)%char then String "\" (String c "")
  else if (n =? 9)%nat then "\t"
  else if (n =? 10)%nat then "\n"
  else if (n =? 13)%nat then "\r"
  else if (n <? 32)%nat || (n =? 127)%nat then
    "\x" ++ String (hex_digit (n / 16)) (String (hex_digit (n mod 16)) "")
  else String c "".

Fixpoint escape (quote : ascii) (s : string) : string :=
  match s with
  | EmptyString => ""
  | String c s' => escape_char quote c ++ escape quote s'
  end.

Definition str_repr (s : string) : string :=
  let quote := if has_char "'" s && negb (has_char "034" s) then "034"%char else "'"%char in
  String quote (escape quote s ++ String quote "").

(** *** repr of a float *)

Definition ndigits (z : Z) : Z := Z.of_nat (String.length (int_str z)).

(** The position of the decimal point: [10^(p-1) <= V/DEN < 10^p]. *)
Definition decimal_point (V DEN : Z) : Z :=
  if (DEN <=? V)%Z then ndigits (V / DEN) else (1 - ndigits (DEN / V))%Z.

(** The shortest digit string [d] of [n] digits, [d * 10^(p-n)] inside the
    rounding interval [LO/DEN .. HI/DEN] of [V/DEN] and nearest to it.
    The search starts at one digit; 17 digits always identify a binary64
    float, which bounds it. *)
Fixpoint shortest (fuel : nat) (n : Z) (closed : bool) (V LO HI DEN p : Z) : Z * Z :=
  match fuel with
  | O => (0, n)%Z
  | S fuel' =>
      let A := (10 ^ Z.max 0 (n - p))%Z in
      let B := (10 ^ Z.max 0 (p - n))%Z in
      let lo := ((V * A) / (DEN * B))%Z in
      let hi := (lo + 1)%Z in
      let inside d :=
        let c := (d * B * DEN)%Z in
        if closed then (LO * A <=? c)%Z && (c <=? HI * A)%Z
        else (LO * A <? c)%Z && (c <? HI * A)%Z in
      let dist d := Z.abs (d * B * DEN - V * A) in
      match inside lo, inside hi with
      | true, true =>
          if (dist hi <? dist lo)%Z then (hi, n)
          else if (dist lo <? dist hi)%Z then (lo, n)
          else if Z.even lo then (lo, n) else (hi, n)
      | true, false => (lo, n)
      | false, true => (hi, n)
      | false, false => shortest fuel' (n + 1)%Z closed V LO HI DEN p
      end
  end.

Fixpoint strip_zeros_rev (s : list ascii) : list ascii :=
  match s with
  | "0"%char :: s' => strip_zeros_rev s'
  | _ => s
  end.

Definition strip_trailing_zeros (s : string) : string :=
  string_of_list_ascii (rev (strip_zeros_rev (rev (list_ascii_of_string s)))).

Fixpoint zeros (n : nat) : string :=
  match n with O => "" | S n' => String "0" (zeros n') end.

Definition take (n : nat) (s : string) : string := substring 0 n s.
Definition drop (n : nat) (s : string) : string := substring n (String.length s - n) s.

(** The digits [ds] with the decimal point after the first [p] of them,
    laid out as [repr] does. *)
Definition layout (ds : string) (p : Z) : string :=
  let n := Z.of_nat (String.length ds) in
  if (p <=? -4)%Z || (16 <? p)%Z then
    let e := (p - 1)%Z in
    let es := int_str (Z.abs e) in
    take 1 ds ++ (if (1 <? n)%Z then "." ++ drop 1 ds else "")
    ++ "e" ++ (if (e <? 0)%Z then "-" else "+")
    ++ (if (String.length es <? 2)%nat then "0" ++ es else es)
  else if (p <=? 0)%Z then "0." ++ zeros (Z.to_nat (- p)) ++ ds
  else if (p <? n)%Z then take (Z.to_nat p) ds ++ "." ++ drop (Z.to_nat p) ds
  else ds ++ zeros (Z.to_nat (p - n)) ++ ".0".

Definition finite_repr (m : positive) (e : Z) : string :=
  let k := Z.max 0 (2 - e) in
  let V := (Z.pos m * 2 ^ (e + k))%Z in
  let half := (2 ^ (e + k - 1))%Z in
  let narrow := (Z.pos m =? 2 ^ 52)%Z && (-1074 <? e)%Z in
  let LO := (V - (if narrow then 2 ^ (e + k - 2) else half))%Z in
  let HI := (V + half)%Z in
  let DEN := (2 ^ k)%Z in
  let p := decimal_point V DEN in
  let '(d, n) := shortest 17 1 (Z.even (Z.pos m)) V LO HI DEN p in
  let ds := int_str d in
  layout (strip_trailing_zeros ds) (p + (Z.of_nat (String.length ds) - n)).

Definition float_repr (f : float) : string :=
  match Prim2SF f with
  | S754_zero s => if s then "-0.0" else "0.0"
  | S754_infinity s => if s then "-inf" else "inf"
  | S754_nan => "nan"
  | S754_finite s m e => (if s then "-" else "") ++ finite_repr m e
  end.

End CPython.

#[export] Instance cpython : PyRuntime :=
  {| float_repr := CPython.float_repr; str_repr := CPython.str_repr |}.

(** ** Exceptions and outcomes *)

(** The exception classes that the tool body or the HTTP client can raise.
    The last three derive from [BaseException] only. *)
Inductive exn_class : Type :=
| ClientError           (* aiohttp: connection refused, reset, bad payload *)
| TimeoutError          (* asyncio.TimeoutError, the 60 s budget ran out *)
| JSONDecodeError       (* json: the body is not JSON *)
| ContentTypeError      (* aiohttp: the body is not declared as JSON *)
| UnicodeDecodeError    (* the body is not text in its charset *)
| KeyError
| AttributeError
| TypeError
| OtherException (name : string)
| CancelledError
| KeyboardInterrupt
| SystemExit.

(** An exception object: its class and [str(e)]. *)
Record exn : Type := mkExn { exn_class_of : exn_class; exn_str : string }.

(** [isinstance(e, Exception)] *)
Definition isinstance_Exception (e : exn) : bool :=
  match exn_class_of e with
  | CancelledError | KeyboardInterrupt | SystemExit => false
  | _ => true
  end.

Inductive outcome (A : Type) : Type :=
| Returned (a : A)
| Raised (e : exn).
Arguments Returned {A} a.
Arguments Raised {A} e.

(** ** The HTTP client *)

Record Request : Type := mkRequest {
  req_method : string;
  req_url : string;
  req_json : pyvalue;
  req_timeout : Z
}.

Record Response : Type := mkResponse {
  status : Z;
  read_text : outcome string;      (* await resp.text() *)
  read_json : outcome pyvalue      (* await resp.json() *)
}.

Definition Network : Type := Request -> outcome Response.

(** ** Computations: the log of issued requests, and exceptions *)

Definition IO (A : Type) : Type := list Request -> outcome A * list Request.

Definition ret {A} (a : A) : IO A := fun log => (Returned a, log).

Definition raise {A} (e : exn) : IO A := fun log => (Raised e, log).

Definition bind {A B} (m : IO A) (k : A -> IO B) : IO B :=
  fun log =>
    match m log with
    | (Returned a, log') => k a log'
    | (Raised e, log') => (Raised e, log')
    end.

Definition lift {A} (o : outcome A) : IO A := fun log => (o, log).

Notation "x <- m ;; k" := (bind m (fun x => k))
  (at level 61, m at next level, right associativity).

(** [try: body / except Exception as e: handler(e)] *)
Definition try_except_Exception {A} (body : IO A) (handler : exn -> IO A) : IO A :=
  fun log =>
    match body log with
    | (Returned a, log') => (Returned a, log')
    | (Raised e, log') =>
        if isinstance_Exception e then handler e log' else (Raised e, log')
    end.

(** [session.post(url, json=body, timeout=t)]: the request is issued
    (logged) and the network decides what comes back. *)
Definition session_post (net : Network) (url : string) (body : pyvalue) (t : Z)
  : IO Response :=
  fun log =>
    let req := mkRequest "POST" url body t in
    (net req, (log ++ [req])%list).

(** [v.get(k, default)]: a dict answers, every other value has no
    attribute [get]. *)
Definition py_get (v : pyvalue) (k : string) (default : pyvalue) : IO pyvalue :=
  match v with
  | PyDict d => ret (dict_get d k default)
  | _ => raise (mkExn AttributeError
                  ("'" ++ type_name v ++ "' object has no attribute 'get'"))
  end.

(** [v[k]] for a str key [k] *)
Definition py_getitem {R : PyRuntime} (v : pyvalue) (k : string) : IO pyvalue :=
  match v with
  | PyDict d =>
      match dict_lookup k d with
      | Some x => ret x
      | None => raise (mkExn KeyError (str_repr k))
      end
  | PyList _ =>
      raise (mkExn TypeError "list indices must be integers or slices, not str")
  | PyStr _ =>
      raise (mkExn TypeError "string indices must be integers, not 'str'")
  | _ => raise (mkExn TypeError ("'" ++ type_name v ++ "' object is not subscriptable"))
  end.

(** ** The server *)

Record TextContent : Type := mkTextContent { type : string; text : string }.

(** The line feed that [\n] denotes in a Python string literal. *)
Definition LF : string := String "010"%char "".

Definition TOKEN : string := "auth_token".
Definition MY_NUMBER : string := "919818039142".

(** *** Auth provider *)

Record AccessToken : Type := mkAccessToken {
  token : string;
  client_id : string;
  scopes : list string;
  expires_at : option Z
}.

Record SimpleBearerAuthProvider : Type :=
  mkSimpleBearerAuthProvider { self_token : string }.

Definition load_access_token (self : SimpleBearerAuthProvider) (token : string)
  : option AccessToken :=
  if (token =? self_token self) then
    Some (mkAccessToken token "math-client" ["*"] None)
  else None.

(** The provider that [FastMCP(..., auth=SimpleBearerAuthProvider(TOKEN))] installs. *)
Definition mcp_auth : SimpleBearerAuthProvider := mkSimpleBearerAuthProvider TOKEN.

(** Modelled from the spec: the bearer check of the framework, which is not
    part of the repository ("invoking any tool with a credential other
    than the configured secret is rejected before tool logic executes").
    The tool runs only when the provider yields an access token. *)
Definition bearer_gate {A} (provider : SimpleBearerAuthProvider) (presented : string)
  (tool : IO A) : IO (option A) :=
  match load_access_token provider presented with
  | Some _ => x <- tool ;; ret (Some x)
  | None => ret None
  end.

(** The names registered by the [@mcp.tool] decorators, in order. *)
Definition mcp_tools : list string := ["validate"; "add_numbers"; "generate_meme"].

(** *** Tools *)

Definition validate : string := MY_NUMBER.

Section Tools.
Context {R : PyRuntime}.

Definition add_numbers (number1 number2 : float) : list TextContent :=
  let result := PrimFloat.add number1 number2 in
  [mkTextContent "text"
     ("The sum of " ++ float_repr number1 ++ " and " ++ float_repr number2
      ++ " is " ++ float_repr result)].

Definition MEME_API_URL : string :=
  "https://memegen-lb2x.onrender.com/puch_generate_meme".

Definition generate_meme (net : Network) (topic : string) (article_index : Z)
  : IO (list TextContent) :=
  try_except_Exception
    (resp <- session_post net MEME_API_URL
               (PyDict [("topic", PyStr topic); ("articleIndex", PyInt article_index)])
               60 ;;
     if negb (status resp =? 200)%Z then
       error_text <- lift (read_text resp) ;;
       ret [mkTextContent "text" ("API request failed: " ++ error_text)]
     else
       data <- lift (read_json resp) ;;
       success <- py_get data "success" PyNone ;;
       if negb (truthy success) then
         error <- py_get data "error" (PyStr "Unknown error") ;;
         ret [mkTextContent "text" ("Error: " ++ py_str error)]
       else
         meme_url <- py_getitem data "memeUrl" ;;
         article <- py_get data "article" (PyDict []) ;;
         caption <- py_get data "caption" (PyDict []) ;;
         title <- py_get article "title" PyNone ;;
         description <- py_get article "description" PyNone ;;
         topText <- py_get caption "topText" (PyStr "") ;;
         bottomText <- py_get caption "bottomText" (PyStr "") ;;
         ret [mkTextContent "text"
                ("**Meme Generated!**" ++ LF ++ "Topic: " ++ topic ++ LF ++ LF
                 ++ "Article: " ++ py_str title ++ LF
                 ++ "Description: " ++ py_str description ++ LF
                 ++ "Caption: " ++ py_str topText ++ " / " ++ py_str bottomText ++ LF
                 ++ "Meme URL: " ++ py_str meme_url)])
    (fun e => ret [mkTextContent "text" ("Exception occurred: " ++ exn_str e)]).

(** A call that leaves [article_index] out takes the default of the
    signature, [article_index = 0]. *)
Definition generate_meme_call (net : Network) (topic : string)
  (article_index : option Z) : IO (list TextContent) :=
  generate_meme net topic (match article_index with Some i => i | None => 0%Z end).
End Tools.

(** * Properties *)

(** ** Vocabulary of the statements *)

(** [sub in text] *)
Definition contains (text sub : string) : Prop :=
  exists before after : string, text = before ++ sub ++ after.

(** The request that one call of the meme tool sends. *)
Definition meme_request (topic : string) (article_index : Z) : Request :=
  mkRequest "POST" "https://memegen-lb2x.onrender.com/puch_generate_meme"
    (PyDict [("topic", PyStr topic); ("articleIndex", PyInt article_index)]) 60.

(** The multi-line block of a generated meme, from the texts of its parts. *)
Definition meme_block (topic title description top bottom url : string) : string :=
  "**Meme Generated!**" ++ LF ++
  "Topic: " ++ topic ++ LF ++
  LF ++
  "Article: " ++ title ++ LF ++
  "Description: " ++ description ++ LF ++
  "Caption: " ++ top ++ " / " ++ bottom ++ LF ++
  "Meme URL: " ++ url.

Definition is_meme_block (topic t : string) : Prop :=
  exists title description top bottom url,
    t = meme_block topic title description top bottom url.

(** The text of field [k] of the object [d], and [missing] without it. *)
Definition field_text {R : PyRuntime} (d : list (string * pyvalue)) (k : string)
  (missing : string) : string :=
  match dict_lookup k d with
  | Some v => py_str v
  | None => missing
  end.

(** A computation that issues no request. *)
Definition silent {A} (m : IO A) : Prop := forall log, snd (m log) = log.

(** A computation that, when it returns, returns one [TextContent] of
    type [text]. *)
Definition text_result (m : IO (list TextContent)) : Prop :=
  forall log,
    match fst (m log) with
    | Returned l => exists t, l = [mkTextContent "text" t]
    | Raised _ => True
    end.

(** ** Networks and responses to run the tool against *)

(** A double quote, and a JSON string literal without escapes. *)
Definition DQ : string := String "034"%char "".

Definition quoted (s : string) : string := DQ ++ s ++ DQ.

Definition answering (resp : Response) : Network := fun _ => Returned resp.

Definition failing (e : exn) : Network := fun _ => Raised e.

Definition connection_refused : exn :=
  mkExn ClientError
    "Cannot connect to host memegen-lb2x.onrender.com:443 ssl:default [Connection refused]".

(** [asyncio.TimeoutError()] carries no message. *)
Definition timed_out : exn := mkExn TimeoutError "".

Definition malformed_json : exn :=
  mkExn JSONDecodeError "Expecting value: line 1 column 1 (char 0)".

Definition cancelled : exn := mkExn CancelledError "".

(** A response with a JSON body: its text and what the text parses to. *)
Definition json_response (st : Z) (body : string) (parsed : pyvalue) : Response :=
  mkResponse st (Returned body) (Returned parsed).

(** 500 with the body [Internal Server Error], which is not JSON *)
Definition server_error : Response :=
  mkResponse 500 (Returned "Internal Server Error") (Raised malformed_json).

(** 200 with a body that is not JSON *)
Definition not_json : Response :=
  mkResponse 200 (Returned "<html>oops</html>") (Raised malformed_json).

Definition no_articles_body : list (string * pyvalue) :=
  [("success", PyBool false); ("error", PyStr "no articles found")].

Definition no_articles : Response :=
  json_response 200
    ("{" ++ quoted "success" ++ ": false, " ++ quoted "error" ++ ": "
     ++ quoted "no articles found" ++ "}")
    (PyDict no_articles_body).

Definition full_success : Response :=
  json_response 200
    ("{" ++ quoted "success" ++ ": true, " ++ quoted "memeUrl" ++ ": " ++ quoted "U" ++ ", "
     ++ quoted "article" ++ ": {" ++ quoted "title" ++ ": " ++ quoted "T" ++ ", "
     ++ quoted "description" ++ ": " ++ quoted "D" ++ "}, "
     ++ quoted "caption" ++ ": {" ++ quoted "topText" ++ ": " ++ quoted "X" ++ ", "
     ++ quoted "bottomText" ++ ": " ++ quoted "Y" ++ "}}")
    (PyDict [("success", PyBool true);
             ("memeUrl", PyStr "U");
             ("article", PyDict [("title", PyStr "T"); ("description", PyStr "D")]);
             ("caption", PyDict [("topText", PyStr "X"); ("bottomText", PyStr "Y")])]).

Definition url_only_body : list (string * pyvalue) :=
  [("success", PyBool true); ("memeUrl", PyStr "https://i.imgflip.com/1.jpg")].

Definition url_only : Response :=
  json_response 200
    ("{" ++ quoted "success" ++ ": true, " ++ quoted "memeUrl" ++ ": "
     ++ quoted "https://i.imgflip.com/1.jpg" ++ "}")
    (PyDict url_only_body).

Definition success_only : Response :=
  json_response 200 ("{" ++ quoted "success" ++ ": true}")
    (PyDict [("success", PyBool true)]).

Definition null_article : Response :=
  json_response 200
    ("{" ++ quoted "success" ++ ": true, " ++ quoted "memeUrl" ++ ": " ++ quoted "U" ++ ", "
     ++ quoted "article" ++ ": null}")
    (PyDict [("success", PyBool true); ("memeUrl", PyStr "U"); ("article", PyNone)]).

Definition empty_array : Response := json_response 200 "[]" (PyList []).

Definition structured_error : Response :=
  json_response 200
    ("{" ++ quoted "error" ++ ": {" ++ quoted "code" ++ ": 42, " ++ quoted "detail"
     ++ ": [" ++ quoted "a" ++ ", 1.5, null, true]}}")
    (PyDict [("error", PyDict [("code", PyInt 42);
                               ("detail", PyList [PyStr "a"; PyFloat 1.5; PyNone;
                                                  PyBool true])])]).

(** The top-level keys of the body that the meme tool reads. *)
Definition meme_fields : list string :=
  ["success"; "error"; "memeUrl"; "article"; "caption"].

Definition null_caption_body : list (string * pyvalue) :=
  [("success", PyBool true); ("memeUrl", PyStr "U");
   ("article", PyDict [("title", PyStr "T")]); ("caption", PyNone)].

Definition null_caption : Response :=
  json_response 200
    ("{" ++ quoted "success" ++ ": true, " ++ quoted "memeUrl" ++ ": " ++ quoted "U" ++ ", "
     ++ quoted "article" ++ ": {" ++ quoted "title" ++ ": " ++ quoted "T" ++ "}, "
     ++ quoted "caption" ++ ": null}")
    (PyDict null_caption_body).

(** The body of [url_only] with its keys in the other order and two keys
    that the tool does not know. *)
Definition url_only_padded_body : list (string * pyvalue) :=
  [("requestId", PyInt 7); ("memeUrl", PyStr "https://i.imgflip.com/1.jpg");
   ("success", PyBool true); ("elapsed", PyFloat 0.5)].

Definition url_only_padded : Response :=
  json_response 200
    ("{" ++ quoted "requestId" ++ ": 7, " ++ quoted "memeUrl" ++ ": "
     ++ quoted "https://i.imgflip.com/1.jpg" ++ ", " ++ quoted "success" ++ ": true, "
     ++ quoted "elapsed" ++ ": 0.5}")
    (PyDict url_only_padded_body).

(** 404 with the text of [server_error] and a JSON view that parses *)
Definition not_found : Response :=
  mkResponse 404 (Returned "Internal Server Error")
    (Returned (PyDict [("success", PyBool true); ("memeUrl", PyStr "U")])).

(** ** Strings *)

Lemma append_assoc (a b c : string) : (a ++ b) ++ c = a ++ b ++ c.
Proof.
  induction a as [| x a IH]; simpl.
  - reflexivity.
  - now rewrite IH.
Qed.

Lemma append_empty_r (a : string) : a ++ "" = a.
Proof.
  induction a as [| x a IH]; simpl; [reflexivity | now rewrite IH].
Qed.

Lemma contains_refl (s : string) : contains s s.
Proof. exists "", "". simpl. now rewrite append_empty_r. Qed.

Lemma contains_prefix (s r : string) : contains (s ++ r) s.
Proof. now exists "", r. Qed.

Lemma contains_skip (p t s : string) : contains t s -> contains (p ++ t) s.
Proof.
  intros (b & a & ->). exists (p ++ b), a. now rewrite append_assoc.
Qed.

Lemma contains_skip_char (c : ascii) (t s : string) :
  contains t s -> contains (String c t) s.
Proof. apply (contains_skip (String c "")). Qed.

(** Finds [s] among the pieces of a right-nested concatenation. *)
Ltac find_substring :=
  repeat first [ apply contains_refl | apply contains_prefix
               | apply contains_skip_char | apply contains_skip ].

(** A text that starts with another character is not a meme block. *)
Lemma meme_block_head (topic t : string) (c : ascii) (t' : string) :
  t = String c t' -> c <> "*"%char -> ~ is_meme_block topic t.
Proof.
  intros -> Hc (ti & de & to & bo & ur & H).
  unfold meme_block in H. simpl in H. injection H as Hh _. now apply Hc.
Qed.

(** ** The monad *)

Lemma silent_ret {A} (a : A) : silent (ret a).
Proof. now intros log. Qed.

Lemma silent_raise {A} (e : exn) : silent (@raise A e).
Proof. now intros log. Qed.

Lemma silent_lift {A} (o : outcome A) : silent (lift o).
Proof. now intros log. Qed.

Lemma silent_bind {A B} (m : IO A) (k : A -> IO B) :
  silent m -> (forall a, silent (k a)) -> silent (x <- m ;; k x).
Proof.
  intros Hm Hk log. unfold bind.
  specialize (Hm log). destruct (m log) as [[a | e] log']; simpl in *; subst.
  - apply Hk.
  - reflexivity.
Qed.

Lemma silent_if {A} (b : bool) (m1 m2 : IO A) :
  silent m1 -> silent m2 -> silent (if b then m1 else m2).
Proof. now destruct b. Qed.

Lemma silent_py_get (v : pyvalue) (k : string) (d : pyvalue) : silent (py_get v k d).
Proof. destruct v; simpl; (apply silent_ret || apply silent_raise). Qed.

Lemma silent_py_getitem {R : PyRuntime} (v : pyvalue) (k : string) :
  silent (py_getitem v k).
Proof.
  destruct v; simpl; try apply silent_raise.
  destruct (dict_lookup k d); [apply silent_ret | apply silent_raise].
Qed.

Create HintDb io_silent.
#[export] Hint Resolve silent_ret silent_raise silent_lift silent_py_get
  silent_py_getitem : io_silent.

Lemma text_result_ret (t : string) : text_result (ret [mkTextContent "text" t]).
Proof. intros log. simpl. eauto. Qed.

Lemma text_result_bind {A} (m : IO A) (k : A -> IO (list TextContent)) :
  (forall a, text_result (k a)) -> text_result (x <- m ;; k x).
Proof.
  intros Hk log. unfold bind.
  destruct (m log) as [[a | e] log']; [apply Hk | exact I].
Qed.

Lemma text_result_if (b : bool) (m1 m2 : IO (list TextContent)) :
  text_result m1 -> text_result m2 -> text_result (if b then m1 else m2).
Proof. now destruct b. Qed.

(** What [try ... except Exception] does to the log of a body that logs
    [req] and to a handler that logs nothing. *)
Lemma try_except_log {A} (body : IO A) (handler : exn -> IO A) (log log' : list Request) :
  snd (body log) = log' -> (forall e, silent (handler e)) ->
  snd (try_except_Exception body handler log) = log'.
Proof.
  intros Hb Hh. unfold try_except_Exception.
  destruct (body log) as [[a | e] l]; simpl in *; subst.
  - reflexivity.
  - destruct (isinstance_Exception e); [apply Hh | reflexivity].
Qed.

Lemma post_then_log {A} (net : Network) (url : string) (b : pyvalue) (t : Z)
  (k : Response -> IO A) (log : list Request) :
  (forall r, silent (k r)) ->
  snd ((resp <- session_post net url b t ;; k resp) log)
  = (log ++ [mkRequest "POST" url b t])%list.
Proof.
  intros Hk. unfold bind, session_post.
  destruct (net _) as [r | e]; simpl; [apply Hk | reflexivity].
Qed.

(** ** The access gate *)

(** C3: a presented token yields the principal descriptor (client
    [math-client], the single scope [*], no expiry) exactly when it equals
    the configured secret, and [None] exactly when it differs; no other
    descriptor is ever returned. *)
Theorem load_access_token_iff (self : SimpleBearerAuthProvider) (presented : string) :
  (load_access_token self presented
     = Some (mkAccessToken presented "math-client" ["*"] None)
   <-> presented = self_token self)
  /\ (load_access_token self presented = None <-> presented <> self_token self)
  /\ (forall a, load_access_token self presented = Some a ->
        a = mkAccessToken presented "math-client" ["*"] None).
Proof.
  unfold load_access_token.
  destruct (String.eqb_spec presented (self_token self)) as [E | N].
  - split; [| split].
    + split; [intros _; exact E | reflexivity].
    + split; [discriminate | intros H; contradiction].
    + intros a H. now injection H as <-.
  - split; [| split].
    + split; [discriminate | intros H; contradiction].
    + split; [intros _; exact N | reflexivity].
    + discriminate.
Qed.

(** X2: the gate of this server accepts [auth_token] and nothing else. *)
Corollary mcp_auth_accepts (presented : string) :
  load_access_token mcp_auth presented <> None <-> presented = "auth_token".
Proof.
  unfold load_access_token, mcp_auth, TOKEN. simpl.
  destruct (String.eqb_spec presented "auth_token") as [E | N].
  - split; [intros _; exact E | discriminate].
  - split; [intros H; now contradiction H | intros E; contradiction].
Qed.

(** A denied call runs nothing: no request is issued and no tool result
    exists. *)
Corollary bearer_gate_denies {A} (tool : IO A) (presented : string)
  (log : list Request) :
  presented <> "auth_token" ->
  bearer_gate mcp_auth presented tool log = (Returned None, log).
Proof.
  intros N. unfold bearer_gate, load_access_token, mcp_auth, TOKEN. simpl.
  now destruct (String.eqb_spec presented "auth_token").
Qed.

Example load_access_token_wrong :
  load_access_token mcp_auth "Auth_token" = None.
Proof. reflexivity. Qed.

(** ** validate *)

(** C9: the server registers a tool [validate], which takes no argument
    and returns the fixed string 919818039142. *)
Theorem validate_number :
  In "validate" mcp_tools /\ validate = "919818039142".
Proof. split; [now left | reflexivity]. Qed.

Section ToolProperties.
Context {R : PyRuntime}.

(** ** add_numbers *)

(** C7: for all floats a and b the tool returns one sentence, and that
    sentence ends with the rendering of the float sum a + b. *)
Theorem add_numbers_sum (a b : float) :
  exists t,
    add_numbers a b = [mkTextContent "text" t]
    /\ t = "The sum of " ++ float_repr a ++ " and " ++ float_repr b ++ " is "
           ++ float_repr (a + b)%float
    /\ contains t (float_repr (a + b)%float).
Proof.
  eexists. split; [reflexivity |]. split; [reflexivity |].
  exists ("The sum of " ++ float_repr a ++ " and " ++ float_repr b ++ " is "), "".
  now rewrite append_empty_r, !append_assoc.
Qed.

(** ** generate_meme *)

Lemma generate_meme_log (net : Network) (topic : string) (i : Z) (log : list Request) :
  snd (generate_meme net topic i log) = (log ++ [meme_request topic i])%list.
Proof.
  unfold generate_meme. apply try_except_log.
  - apply post_then_log. intros r.
    repeat match goal with
           | |- forall _, silent _ => intro
           | |- silent (if _ then _ else _) => apply silent_if
           | |- silent (bind _ _) => apply silent_bind
           | |- silent _ => solve [auto with io_silent]
           end.
  - intros e. apply silent_ret.
Qed.

(** C8: a call with topic t and article index i, 0 when the index is left
    out, issues exactly one request: a POST to the fixed URL with the body
    [{topic: t, articleIndex: i}] and the timeout 60, whatever the network
    answers. *)
Theorem generate_meme_one_post (net : Network) (topic : string)
  (article_index : option Z) (log : list Request) :
  snd (generate_meme_call net topic article_index log)
  = (log ++ [mkRequest "POST" "https://memegen-lb2x.onrender.com/puch_generate_meme"
               (PyDict [("topic", PyStr topic);
                        ("articleIndex",
                          PyInt (match article_index with Some i => i | None => 0%Z end))])
               60])%list.
Proof. unfold generate_meme_call. apply generate_meme_log. Qed.

Ltac unfold_tool :=
  unfold generate_meme, try_except_Exception, bind, session_post, lift, ret, raise,
    MEME_API_URL, meme_request in *.

(** C2: when the HTTP call, the reading of a non-200 body or the parsing
    of a 200 body raises an [Exception] e, the tool returns the one text
    [Exception occurred: str(e)]; nothing is raised. *)
Theorem generate_meme_catches (net : Network) (topic : string) (i : Z)
  (log : list Request) (e : exn) :
  isinstance_Exception e = true ->
  net (meme_request topic i) = Raised e
  \/ (exists resp, net (meme_request topic i) = Returned resp
        /\ status resp <> 200%Z /\ read_text resp = Raised e)
  \/ (exists resp, net (meme_request topic i) = Returned resp
        /\ status resp = 200%Z /\ read_json resp = Raised e) ->
  generate_meme net topic i log
  = (Returned [mkTextContent "text" ("Exception occurred: " ++ exn_str e)],
     (log ++ [meme_request topic i])%list).
Proof.
  intros He [Hnet | [(resp & Hnet & Hst & Hrd) | (resp & Hnet & Hst & Hrd)]];
    unfold_tool; rewrite Hnet.
  - now rewrite He.
  - apply Z.eqb_neq in Hst. rewrite Hst. simpl. rewrite Hrd. now rewrite He.
  - rewrite Hst. simpl. rewrite Hrd. now rewrite He.
Qed.

(** C4: for a response whose status is not 200 and whose body reads as
    the text b, the tool returns the one text [API request failed: b],
    which contains b. *)
Theorem generate_meme_http_failure (net : Network) (topic : string) (i : Z)
  (log : list Request) (resp : Response) (b : string) :
  net (meme_request topic i) = Returned resp ->
  status resp <> 200%Z ->
  read_text resp = Returned b ->
  exists t,
    generate_meme net topic i log
    = (Returned [mkTextContent "text" t], (log ++ [meme_request topic i])%list)
    /\ t = "API request failed: " ++ b
    /\ contains t b.
Proof.
  intros Hnet Hst Hrd. exists ("API request failed: " ++ b).
  split; [| split; [reflexivity |]].
  - unfold_tool. rewrite Hnet. apply Z.eqb_neq in Hst. rewrite Hst. simpl.
    now rewrite Hrd.
  - find_substring.
Qed.

(** C5: for a 200 response whose parsed body is an object with a falsy
    (or no) [success] field, the tool returns the one text [Error: ]
    followed by the text of the [error] field, or by [Unknown error]
    when there is no such field; an [error] string is contained in the
    text. *)
Theorem generate_meme_logical_failure (net : Network) (topic : string) (i : Z)
  (log : list Request) (resp : Response) (d : list (string * pyvalue)) :
  net (meme_request topic i) = Returned resp ->
  status resp = 200%Z ->
  read_json resp = Returned (PyDict d) ->
  truthy (dict_get d "success" PyNone) = false ->
  exists t,
    generate_meme net topic i log
    = (Returned [mkTextContent "text" t], (log ++ [meme_request topic i])%list)
    /\ t = "Error: " ++ field_text d "error" "Unknown error"
    /\ forall msg, dict_lookup "error" d = Some (PyStr msg) -> contains t msg.
Proof.
  intros Hnet Hst Hrd Hs.
  exists ("Error: " ++ field_text d "error" "Unknown error").
  split; [| split; [reflexivity |]].
  - unfold_tool. rewrite Hnet, Hst. simpl. rewrite Hrd. simpl. rewrite Hs. simpl.
    unfold field_text, dict_get. now destruct (dict_lookup "error" d).
  - intros msg Hm. unfold field_text. rewrite Hm. simpl. find_substring.
Qed.

(** C6: for a 200 response with the body [{success: true, memeUrl: U,
    article: {title: T, description: D}, caption: {topText: X,
    bottomText: Y}}] the tool returns the one block built from the topic,
    T, D, X, Y and U, and each of them occurs in it verbatim. *)
Theorem generate_meme_success_fields (net : Network) (topic : string) (i : Z)
  (log : list Request) (resp : Response) (U T D X Y : string) :
  net (meme_request topic i) = Returned resp ->
  status resp = 200%Z ->
  read_json resp
  = Returned (PyDict [("success", PyBool true);
                      ("memeUrl", PyStr U);
                      ("article", PyDict [("title", PyStr T); ("description", PyStr D)]);
                      ("caption", PyDict [("topText", PyStr X); ("bottomText", PyStr Y)])]) ->
  exists t,
    generate_meme net topic i log
    = (Returned [mkTextContent "text" t], (log ++ [meme_request topic i])%list)
    /\ t = meme_block topic T D X Y U
    /\ contains t U /\ contains t T /\ contains t D /\ contains t X /\ contains t Y
    /\ contains t topic.
Proof.
  intros Hnet Hst Hrd. exists (meme_block topic T D X Y U).
  split; [| split; [reflexivity |]].
  - unfold_tool. rewrite Hnet, Hst. simpl. rewrite Hrd. reflexivity.
  - unfold meme_block. repeat split; find_substring.
Qed.

(** C1, as the code has it: for a 200 response whose parsed body is an
    object with a truthy [success] field and a [memeUrl] field, and whose
    [article] and [caption] fields are objects where present, the tool
    returns the one block.  A missing [article] or [caption] is read as
    the empty object; a missing [title] or [description] renders as the
    text [None], a missing [topText] or [bottomText] as the empty text. *)
Theorem generate_meme_success (net : Network) (topic : string) (i : Z)
  (log : list Request) (resp : Response) (d article caption : list (string * pyvalue))
  (meme_url : pyvalue) :
  net (meme_request topic i) = Returned resp ->
  status resp = 200%Z ->
  read_json resp = Returned (PyDict d) ->
  truthy (dict_get d "success" PyNone) = true ->
  dict_lookup "memeUrl" d = Some meme_url ->
  dict_get d "article" (PyDict []) = PyDict article ->
  dict_get d "caption" (PyDict []) = PyDict caption ->
  generate_meme net topic i log
  = (Returned [mkTextContent "text"
                 (meme_block topic
                    (field_text article "title" "None")
                    (field_text article "description" "None")
                    (field_text caption "topText" "")
                    (field_text caption "bottomText" "")
                    (py_str meme_url))],
     (log ++ [meme_request topic i])%list).
Proof.
  intros Hnet Hst Hrd Hs Hu Ha Hc.
  unfold_tool. rewrite Hnet, Hst. simpl. rewrite Hrd. simpl. rewrite Hs. simpl.
  rewrite Hu. simpl. rewrite Ha, Hc. simpl.
  unfold field_text, dict_get, meme_block.
  destruct (dict_lookup "title" article), (dict_lookup "description" article),
    (dict_lookup "topText" caption), (dict_lookup "bottomText" caption);
    reflexivity.
Qed.

(** C10: whatever the network does, the tool either returns a list of
    exactly one [TextContent] whose type is [text], or lets through an
    exception that is not an [Exception]. *)
Theorem generate_meme_single_text (net : Network) (topic : string) (i : Z)
  (log : list Request) :
  match fst (generate_meme net topic i log) with
  | Returned l => exists t, l = [mkTextContent "text" t]
  | Raised e => isinstance_Exception e = false
  end.
Proof.
  unfold generate_meme, try_except_Exception.
  match goal with
  | |- context [match ?b log with _ => _ end] =>
      assert (Hb : text_result b)
  end.
  { repeat match goal with
           | |- forall _, text_result _ => intro
           | |- text_result (if _ then _ else _) => apply text_result_if
           | |- text_result (bind _ _) => apply text_result_bind
           | |- text_result (ret _) => apply text_result_ret
           end. }
  specialize (Hb log). cbv beta in Hb.
  match goal with
  | |- context [match ?b log with _ => _ end] => destruct (b log) as [[l | e] log']
  end; simpl in *.
  - exact Hb.
  - destruct (isinstance_Exception e) eqn:He; simpl; [eauto | exact He].
Qed.

End ToolProperties.

(** * Further properties of the code *)

(** ** Strings and floats *)

Lemma append_same_l (s e : string) : s ++ e = s -> e = "".
Proof.
  induction s as [| c s IH]; simpl; intros H.
  - exact H.
  - injection H as H. now apply IH.
Qed.

Lemma length_append (a b : string) :
  String.length (a ++ b) = (String.length a + String.length b)%nat.
Proof. induction a as [| c a IH]; simpl; [reflexivity | now rewrite IH]. Qed.

Lemma append_same_r (s e : string) : e ++ s = s -> e = "".
Proof.
  intros H. apply (f_equal String.length) in H. rewrite length_append in H.
  destruct e; [reflexivity | simpl in H; lia].
Qed.

Lemma SFadd_comm (prec emax : Z) (x y : spec_float) :
  SFadd prec emax x y = SFadd prec emax y x.
Proof.
  destruct x as [sx | sx | | sx mx ex], y as [sy | sy | | sy my ey]; simpl;
    try reflexivity; try (destruct sx, sy; reflexivity).
  now rewrite (Z.min_comm ey ex), Z.add_comm.
Qed.

Lemma float_add_comm (a b : float) : (a + b)%float = (b + a)%float.
Proof. apply Prim2SF_inj. rewrite !add_spec. apply SFadd_comm. Qed.

Lemma float_add_nan (a b : float) :
  PrimFloat.is_nan a = true \/ PrimFloat.is_nan b = true -> (a + b)%float = nan.
Proof.
  intros H. apply Prim2SF_inj. rewrite add_spec.
  change (Prim2SF nan) with S754_nan.
  assert (Hn : forall x, PrimFloat.is_nan x = true -> Prim2SF x = S754_nan).
  { intros x Hx. unfold PrimFloat.is_nan in Hx. rewrite eqb_spec in Hx.
    destruct (Prim2SF x) as [s | s | | s m e]; try reflexivity; exfalso;
      unfold SFeqb, SFcompare in Hx.
    - discriminate.
    - destruct s; discriminate.
    - rewrite Z.compare_refl in Hx.
      change (PosDef.Pos.compare_cont Eq m m) with (Pos.compare m m) in Hx.
      rewrite Pos.compare_refl in Hx. destruct s; discriminate. }
  destruct H as [H | H]; apply Hn in H; rewrite H.
  - reflexivity.
  - now destruct (Prim2SF a).
Qed.

(** ** The access gate *)

(** X1: a presented token that is the secret with any text before or after it
    is denied: the comparison is exact, nothing is trimmed or skipped. *)
Theorem load_access_token_padded (self : SimpleBearerAuthProvider) (extra : string) :
  extra <> "" ->
  load_access_token self (self_token self ++ extra) = None
  /\ load_access_token self (extra ++ self_token self) = None.
Proof.
  intros Hx. unfold load_access_token. split.
  - destruct (String.eqb_spec (self_token self ++ extra) (self_token self)) as [E | _];
      [| reflexivity].
    now apply append_same_l in E.
  - destruct (String.eqb_spec (extra ++ self_token self) (self_token self)) as [E | _];
      [| reflexivity].
    now apply append_same_r in E.
Qed.

Section FurtherToolProperties.
Context {R : PyRuntime}.

(** ** add_numbers *)

(** X3: the sum that [add_numbers] reports is the same in either order of the
    two numbers. *)
Theorem add_numbers_commutes (a b : float) :
  exists s,
    add_numbers a b
    = [mkTextContent "text"
         ("The sum of " ++ float_repr a ++ " and " ++ float_repr b ++ " is " ++ s)]
    /\ add_numbers b a
       = [mkTextContent "text"
            ("The sum of " ++ float_repr b ++ " and " ++ float_repr a ++ " is " ++ s)].
Proof.
  exists (float_repr (a + b)%float). split; [reflexivity |].
  unfold add_numbers. now rewrite (float_add_comm b a).
Qed.

(** X4: when one of the two numbers is not a number, so is the reported sum. *)
Theorem add_numbers_nan (a b : float) :
  PrimFloat.is_nan a = true \/ PrimFloat.is_nan b = true ->
  add_numbers a b
  = [mkTextContent "text"
       ("The sum of " ++ float_repr a ++ " and " ++ float_repr b ++ " is "
        ++ float_repr nan)].
Proof. intros H. unfold add_numbers. now rewrite (float_add_nan a b H). Qed.

(** ** generate_meme *)

Ltac unfold_meme :=
  unfold generate_meme, try_except_Exception, bind, session_post, lift, ret, raise,
    py_get, py_getitem, MEME_API_URL, meme_request in *.

(** X5: a 200 body that parses to something other than an object (an array,
    a string, a number, [null]) has no [get]: the tool answers with the
    text of the [AttributeError], which names the type of the body. *)
Theorem generate_meme_body_not_object (net : Network) (topic : string) (i : Z)
  (log : list Request) (resp : Response) (v : pyvalue) :
  net (meme_request topic i) = Returned resp ->
  status resp = 200%Z ->
  read_json resp = Returned v ->
  (forall d, v <> PyDict d) ->
  generate_meme net topic i log
  = (Returned [mkTextContent "text"
                 ("Exception occurred: '" ++ type_name v
                  ++ "' object has no attribute 'get'")],
     (log ++ [meme_request topic i])%list).
Proof.
  intros Hnet Hst Hrd Hv. unfold_meme. rewrite Hnet, Hst. simpl. rewrite Hrd.
  destruct v; try reflexivity. now contradiction (Hv d).
Qed.

(** X6: a success body without [memeUrl] yields the text of the [KeyError],
    whatever else the body holds. *)
Theorem generate_meme_no_memeUrl (net : Network) (topic : string) (i : Z)
  (log : list Request) (resp : Response) (d : list (string * pyvalue)) :
  net (meme_request topic i) = Returned resp ->
  status resp = 200%Z ->
  read_json resp = Returned (PyDict d) ->
  truthy (dict_get d "success" PyNone) = true ->
  dict_lookup "memeUrl" d = None ->
  generate_meme net topic i log
  = (Returned [mkTextContent "text" ("Exception occurred: " ++ str_repr "memeUrl")],
     (log ++ [meme_request topic i])%list).
Proof.
  intros Hnet Hst Hrd Hs Hu. unfold_meme. rewrite Hnet, Hst. simpl. rewrite Hrd.
  simpl. rewrite Hs. simpl. now rewrite Hu.
Qed.

(** X7: an [article] that is present but not an object, [null] included, is
    not read as empty: the tool answers with the text of the
    [AttributeError] for its type. *)
Theorem generate_meme_article_not_object (net : Network) (topic : string) (i : Z)
  (log : list Request) (resp : Response) (d : list (string * pyvalue))
  (meme_url article : pyvalue) :
  net (meme_request topic i) = Returned resp ->
  status resp = 200%Z ->
  read_json resp = Returned (PyDict d) ->
  truthy (dict_get d "success" PyNone) = true ->
  dict_lookup "memeUrl" d = Some meme_url ->
  dict_lookup "article" d = Some article ->
  (forall a, article <> PyDict a) ->
  generate_meme net topic i log
  = (Returned [mkTextContent "text"
                 ("Exception occurred: '" ++ type_name article
                  ++ "' object has no attribute 'get'")],
     (log ++ [meme_request topic i])%list).
Proof.
  intros Hnet Hst Hrd Hs Hu Ha Hna.
  assert (Ha' : dict_get d "article" (PyDict []) = article)
    by (unfold dict_get; now rewrite Ha).
  unfold_meme. rewrite Hnet, Hst. simpl.
  rewrite Hrd. simpl. rewrite Hs. simpl. rewrite Hu. simpl. rewrite Ha'.
  unfold ret, raise.
  destruct article; try (now destruct (dict_get d "caption" (PyDict []))).
  now contradiction (Hna d0).
Qed.

(** X8: a [caption] that is present but not an object, when the article
    is an object or absent, likewise yields the text of the
    [AttributeError] for its type. *)
Theorem generate_meme_caption_not_object (net : Network) (topic : string) (i : Z)
  (log : list Request) (resp : Response) (d article : list (string * pyvalue))
  (meme_url caption : pyvalue) :
  net (meme_request topic i) = Returned resp ->
  status resp = 200%Z ->
  read_json resp = Returned (PyDict d) ->
  truthy (dict_get d "success" PyNone) = true ->
  dict_lookup "memeUrl" d = Some meme_url ->
  dict_get d "article" (PyDict []) = PyDict article ->
  dict_lookup "caption" d = Some caption ->
  (forall c, caption <> PyDict c) ->
  generate_meme net topic i log
  = (Returned [mkTextContent "text"
                 ("Exception occurred: '" ++ type_name caption
                  ++ "' object has no attribute 'get'")],
     (log ++ [meme_request topic i])%list).
Proof.
  intros Hnet Hst Hrd Hs Hu Ha Hc Hnc.
  assert (Hc' : dict_get d "caption" (PyDict []) = caption)
    by (unfold dict_get; now rewrite Hc).
  unfold_meme. rewrite Hnet, Hst. simpl.
  rewrite Hrd. simpl. rewrite Hs. simpl. rewrite Hu. simpl. rewrite Ha, Hc'.
  unfold ret, raise.
  destruct caption; try reflexivity. now contradiction (Hnc d0).
Qed.

(** X9: an exception that is not an [Exception] (a cancellation, an
    interrupt) raised by the POST, by the reading of a non-200 body or by
    the parsing of a 200 body leaves the tool as it is; the one request
    has been issued. *)
Theorem generate_meme_lets_through (net : Network) (topic : string) (i : Z)
  (log : list Request) (e : exn) :
  isinstance_Exception e = false ->
  net (meme_request topic i) = Raised e
  \/ (exists resp, net (meme_request topic i) = Returned resp
        /\ status resp <> 200%Z /\ read_text resp = Raised e)
  \/ (exists resp, net (meme_request topic i) = Returned resp
        /\ status resp = 200%Z /\ read_json resp = Raised e) ->
  generate_meme net topic i log = (Raised e, (log ++ [meme_request topic i])%list).
Proof.
  intros He [Hnet | [(resp & Hnet & Hst & Hrd) | (resp & Hnet & Hst & Hrd)]];
    unfold_meme; rewrite Hnet.
  - now rewrite He.
  - apply Z.eqb_neq in Hst. rewrite Hst. simpl. rewrite Hrd. now rewrite He.
  - rewrite Hst. simpl. rewrite Hrd. now rewrite He.
Qed.

Ltac exc_case :=
  right; right; right;
  match goal with
  | Hexc : forall (e : exn) (lg : list Request), _, H : _ = Returned _ |- _ =>
      first [ exact (Hexc _ _ H)
            | simpl in H; injection H as <-; eexists; reflexivity ]
  end.

(** Every list that the tool returns is one of four texts, each with the
    condition under which it is produced. *)
Lemma generate_meme_inv (net : Network) (topic : string) (i : Z)
  (log : list Request) (l : list TextContent) :
  fst (generate_meme net topic i log) = Returned l ->
  (exists resp b,
      net (meme_request topic i) = Returned resp /\ status resp <> 200%Z
      /\ read_text resp = Returned b
      /\ l = [mkTextContent "text" ("API request failed: " ++ b)])
  \/ (exists resp d,
         net (meme_request topic i) = Returned resp /\ status resp = 200%Z
         /\ read_json resp = Returned (PyDict d)
         /\ truthy (dict_get d "success" PyNone) = false
         /\ l = [mkTextContent "text" ("Error: " ++ field_text d "error" "Unknown error")])
  \/ (exists resp d meme_url a c,
         net (meme_request topic i) = Returned resp /\ status resp = 200%Z
         /\ read_json resp = Returned (PyDict d)
         /\ truthy (dict_get d "success" PyNone) = true
         /\ dict_lookup "memeUrl" d = Some meme_url
         /\ dict_get d "article" (PyDict []) = PyDict a
         /\ dict_get d "caption" (PyDict []) = PyDict c
         /\ l = [mkTextContent "text"
                   (meme_block topic
                      (field_text a "title" "None") (field_text a "description" "None")
                      (field_text c "topText" "") (field_text c "bottomText" "")
                      (py_str meme_url))])
  \/ (exists s, l = [mkTextContent "text" ("Exception occurred: " ++ s)]).
Proof.
  intros H.
  assert (Hexc : forall (e : exn) (lg : list Request),
             fst (if isinstance_Exception e
                  then (Returned [mkTextContent "text" ("Exception occurred: " ++ exn_str e)], lg)
                  else (Raised e, lg)) = Returned l ->
             exists s, l = [mkTextContent "text" ("Exception occurred: " ++ s)]).
  { intros e lg He. destruct (isinstance_Exception e); simpl in He; [| discriminate].
    injection He as <-. now exists (exn_str e). }
  unfold generate_meme, try_except_Exception, bind, session_post, lift, ret, raise,
    MEME_API_URL in H.
  change (mkRequest "POST" "https://memegen-lb2x.onrender.com/puch_generate_meme"
            (PyDict [("topic", PyStr topic); ("articleIndex", PyInt i)]) 60)
    with (meme_request topic i) in H.
  destruct (net (meme_request topic i)) as [resp | e] eqn:Hnet; [| exc_case].
  destruct (status resp =? 200)%Z eqn:Hst; simpl in H.
  - apply Z.eqb_eq in Hst.
    destruct (read_json resp) as [v | e] eqn:Hrd; [| exc_case].
    destruct v as [| b | z | f | s | vs | d]; simpl in H; try exc_case.
    destruct (truthy (dict_get d "success" PyNone)) eqn:Hs; simpl in H.
    + destruct (dict_lookup "memeUrl" d) as [u |] eqn:Hu; simpl in H; [| exc_case].
      destruct (dict_get d "article" (PyDict [])) as [| | | | | | a] eqn:Ha;
        simpl in H; try exc_case.
      destruct (dict_get d "caption" (PyDict [])) as [| | | | | | c] eqn:Hc;
        simpl in H; try exc_case.
      injection H as <-.
      right; right; left. exists resp, d, u, a, c. repeat split; try assumption.
      unfold field_text, dict_get, meme_block.
      destruct (dict_lookup "title" a), (dict_lookup "description" a),
        (dict_lookup "topText" c), (dict_lookup "bottomText" c); reflexivity.
    + injection H as <-.
      right; left. exists resp, d. repeat split; try assumption.
      unfold field_text, dict_get. now destruct (dict_lookup "error" d).
  - apply Z.eqb_neq in Hst.
    destruct (read_text resp) as [b | e] eqn:Hrd; [| exc_case].
    simpl in H. injection H as <-. left. now exists resp, b.
Qed.

(** X10: the block is returned only when the upstream reported success: a text
    that is the meme block comes from a 200 response whose body is an
    object with a truthy [success] and a [memeUrl]. *)
Theorem generate_meme_block_only_on_success (net : Network) (topic : string) (i : Z)
  (log : list Request) (t : string) :
  fst (generate_meme net topic i log) = Returned [mkTextContent "text" t] ->
  is_meme_block topic t ->
  exists resp d,
    net (meme_request topic i) = Returned resp
    /\ status resp = 200%Z
    /\ read_json resp = Returned (PyDict d)
    /\ truthy (dict_get d "success" PyNone) = true
    /\ dict_lookup "memeUrl" d <> None.
Proof.
  intros H Hb.
  destruct (generate_meme_inv net topic i log _ H)
    as [(resp & b & _ & _ & _ & E)
       | [(resp & d & _ & _ & _ & _ & E)
         | [(resp & d & u & a & c & Hnet & Hst & Hrd & Hs & Hu & _)
           | (s & E)]]];
    try (injection E as ->; exfalso; revert Hb;
         eapply meme_block_head; [simpl; reflexivity | discriminate]).
  exists resp, d. repeat split; try assumption. now rewrite Hu.
Qed.

(** X11: the two failure texts tell their cause: a text that starts with
    [API request failed: ] comes from a response whose status is not 200
    and the rest is its body; a text that starts with [Error: ] comes from
    a 200 object body with a falsy [success] and the rest is its [error]
    field or [Unknown error]. *)
Theorem generate_meme_failure_prefixes (net : Network) (topic : string) (i : Z)
  (log : list Request) (t : string) :
  fst (generate_meme net topic i log) = Returned [mkTextContent "text" t] ->
  (forall b, t = "API request failed: " ++ b ->
     exists resp, net (meme_request topic i) = Returned resp
                  /\ status resp <> 200%Z /\ read_text resp = Returned b)
  /\ (forall m, t = "Error: " ++ m ->
        exists resp d, net (meme_request topic i) = Returned resp
                       /\ status resp = 200%Z
                       /\ read_json resp = Returned (PyDict d)
                       /\ truthy (dict_get d "success" PyNone) = false
                       /\ m = field_text d "error" "Unknown error").
Proof.
  intros H.
  destruct (generate_meme_inv net topic i log _ H)
    as [(resp & b & Hnet & Hst & Hrd & E)
       | [(resp & d & Hnet & Hst & Hrd & Hs & E)
         | [(resp & d & u & a & c & _ & _ & _ & _ & _ & _ & _ & E)
           | (s & E)]]];
    injection E as ->; split; intros x Hx; simpl in Hx; try discriminate.
  - injection Hx as <-. now exists resp.
  - injection Hx as <-. now exists resp, d.
Qed.

(** X12: the tool reads the body through five top-level keys only: two object
    bodies that agree on [success], [error], [memeUrl], [article] and
    [caption] give the same result, whatever their other keys and the
    order of their keys. *)
Theorem generate_meme_reads_five_keys (net net' : Network) (topic : string) (i : Z)
  (log : list Request) (resp resp' : Response) (d d' : list (string * pyvalue)) :
  net (meme_request topic i) = Returned resp ->
  net' (meme_request topic i) = Returned resp' ->
  status resp = 200%Z -> status resp' = 200%Z ->
  read_json resp = Returned (PyDict d) ->
  read_json resp' = Returned (PyDict d') ->
  (forall k, In k meme_fields -> dict_lookup k d = dict_lookup k d') ->
  generate_meme net topic i log = generate_meme net' topic i log.
Proof.
  intros Hnet Hnet' Hst Hst' Hrd Hrd' Hk.
  assert (Hget : forall k dflt, In k meme_fields -> dict_get d k dflt = dict_get d' k dflt)
    by (intros k dflt Hin; unfold dict_get; now rewrite (Hk k Hin)).
  unfold_meme. rewrite Hnet, Hnet', Hst, Hst'. simpl. rewrite Hrd, Hrd'. simpl.
  rewrite (Hk "memeUrl"), !(Hget "success"), !(Hget "error"), !(Hget "article"),
    !(Hget "caption") by (unfold meme_fields; simpl; tauto).
  reflexivity.
Qed.

(** X13: for a response that is not 200 neither the status code nor the JSON
    in the body reaches the result: two such responses with the same body
    text give the same result. *)
Theorem generate_meme_ignores_status_code (net net' : Network) (topic : string) (i : Z)
  (log : list Request) (resp resp' : Response) :
  net (meme_request topic i) = Returned resp ->
  net' (meme_request topic i) = Returned resp' ->
  status resp <> 200%Z -> status resp' <> 200%Z ->
  read_text resp = read_text resp' ->
  generate_meme net topic i log = generate_meme net' topic i log.
Proof.
  intros Hnet Hnet' Hst Hst' Htx. apply Z.eqb_neq in Hst, Hst'.
  unfold_meme. rewrite Hnet, Hnet', Hst, Hst'. simpl. now rewrite Htx.
Qed.

End FurtherToolProperties.

(** * Runs on the reference runtime *)

Lemma generate_meme_catches_witness :
  generate_meme (R := cpython) (failing connection_refused) "cats" 0 []
  = (Returned [mkTextContent "text" ("Exception occurred: " ++ exn_str connection_refused)],
     [meme_request "cats" 0]).
Proof.
  apply (generate_meme_catches (R := cpython) (failing connection_refused) "cats" 0 []
           connection_refused).
  - reflexivity.
  - left. reflexivity.
Defined.

Lemma generate_meme_http_failure_witness :
  exists t,
    generate_meme (R := cpython) (answering server_error) "cats" 0 []
    = (Returned [mkTextContent "text" t], [meme_request "cats" 0])
    /\ t = "API request failed: Internal Server Error"
    /\ contains t "Internal Server Error".
Proof.
  apply (generate_meme_http_failure (R := cpython) (answering server_error) "cats" 0 []
           server_error "Internal Server Error").
  - reflexivity.
  - simpl. lia.
  - reflexivity.
Defined.

Lemma generate_meme_logical_failure_witness :
  exists t,
    generate_meme (R := cpython) (answering no_articles) "cats" 0 []
    = (Returned [mkTextContent "text" t], [meme_request "cats" 0])
    /\ t = "Error: no articles found"
    /\ contains t "no articles found".
Proof.
  destruct (generate_meme_logical_failure (R := cpython) (answering no_articles) "cats" 0 []
              no_articles no_articles_body)
    as (t & Hrun & Ht & Hmsg); try reflexivity.
  exists t. repeat split; [exact Hrun | exact Ht | apply Hmsg; reflexivity].
Defined.

Lemma generate_meme_success_fields_witness :
  exists t,
    generate_meme (R := cpython) (answering full_success) "cats" 0 []
    = (Returned [mkTextContent "text" t], [meme_request "cats" 0])
    /\ t = meme_block "cats" "T" "D" "X" "Y" "U"
    /\ contains t "U" /\ contains t "T" /\ contains t "D" /\ contains t "X"
    /\ contains t "Y" /\ contains t "cats".
Proof.
  apply (generate_meme_success_fields (R := cpython) (answering full_success) "cats" 0 []
           full_success "U" "T" "D" "X" "Y");
    reflexivity.
Defined.

Lemma generate_meme_success_witness :
  generate_meme (R := cpython) (answering url_only) "cats" 0 []
  = (Returned [mkTextContent "text"
                 (meme_block "cats" "None" "None" "" "" "https://i.imgflip.com/1.jpg")],
     [meme_request "cats" 0]).
Proof.
  apply (generate_meme_success (R := cpython) (answering url_only) "cats" 0 [] url_only
           url_only_body [] [] (PyStr "https://i.imgflip.com/1.jpg"));
    reflexivity.
Defined.

(** C1 fails as stated: the body [{success: true}] has status 200 and a
    truthy [success], and the tool answers with the text of a [KeyError],
    which is not the block. *)
Lemma generate_meme_missing_memeUrl :
  status success_only = 200%Z
  /\ read_json success_only = Returned (PyDict [("success", PyBool true)])
  /\ truthy (dict_get [("success", PyBool true)] "success" PyNone) = true
  /\ fst (generate_meme (R := cpython) (answering success_only) "cats" 0 [])
     = Returned [mkTextContent "text" "Exception occurred: 'memeUrl'"]
  /\ ~ is_meme_block "cats" "Exception occurred: 'memeUrl'".
Proof.
  repeat split; try reflexivity.
  apply (meme_block_head _ _ "E"%char "xception occurred: 'memeUrl'"); [reflexivity |].
  discriminate.
Qed.

(** ** Further runs *)

Example timeout_is_text :
  fst (generate_meme (failing timed_out) "cats" 0 [])
  = Returned [mkTextContent "text" "Exception occurred: "].
Proof. reflexivity. Qed.

Example malformed_json_is_text :
  fst (generate_meme (answering not_json) "cats" 0 [])
  = Returned [mkTextContent "text"
                "Exception occurred: Expecting value: line 1 column 1 (char 0)"].
Proof. reflexivity. Qed.

(** A cancellation is not an [Exception]: it passes the handler. *)
Example cancellation_propagates :
  fst (generate_meme (failing cancelled) "cats" 0 []) = Raised cancelled.
Proof. reflexivity. Qed.

Example null_article_is_text :
  fst (generate_meme (answering null_article) "cats" 0 [])
  = Returned [mkTextContent "text"
                "Exception occurred: 'NoneType' object has no attribute 'get'"].
Proof. reflexivity. Qed.

Example array_body_is_text :
  fst (generate_meme (answering empty_array) "cats" 0 [])
  = Returned [mkTextContent "text"
                "Exception occurred: 'list' object has no attribute 'get'"].
Proof. reflexivity. Qed.

Example structured_error_is_rendered :
  fst (generate_meme (answering structured_error) "cats" 0 [])
  = Returned [mkTextContent "text"
                "Error: {'code': 42, 'detail': ['a', 1.5, None, True]}"].
Proof. vm_compute. reflexivity. Qed.

Example default_article_index :
  snd (generate_meme_call (answering full_success) "cats" None [])
  = [meme_request "cats" 0].
Proof. reflexivity. Qed.

Example add_numbers_integers :
  add_numbers 1 2 = [mkTextContent "text" "The sum of 1.0 and 2.0 is 3.0"].
Proof. vm_compute. reflexivity. Qed.

Example add_numbers_rounds :
  add_numbers 0x1.999999999999ap-4 0x1.999999999999ap-3
  = [mkTextContent "text" "The sum of 0.1 and 0.2 is 0.30000000000000004"].
Proof. vm_compute. reflexivity. Qed.

Example add_numbers_large :
  add_numbers 1e16 1e16 = [mkTextContent "text" "The sum of 1e+16 and 1e+16 is 2e+16"].
Proof. vm_compute. reflexivity. Qed.

Example str_repr_quotes :
  str_repr "it's" = quoted "it's" /\ str_repr "memeUrl" = "'memeUrl'".
Proof. split; reflexivity. Qed.

(** The reference [repr] on floats that Python prints as shown: the least
    subnormal, both layouts around [1e16] and [1e-4], a half-way case and
    the largest finite float. *)
Example float_repr_samples :
  map float_repr
    [0x0.0000000000001p-1022; 0x1.0f0cf064dd592p+73; 0x1.52d02c7e14af6p+76;
     0x1.4f8b588e368f1p-17; 0x1.a36e2eb1c432dp-14; 0x1.c6bf526340000p+49;
     0x1.1c37937e08000p+53; (-0x1.4000000000000p+1); 0x1.fffffffffffffp+1023;
     0x1.699a630fc06f8p+46; 0x1.d6f3454800000p+26; 0x1.5555555555555p-2;
     (-0); infinity; nan]%float
  = ["5e-324"; "1e+22"; "1e+23"; "1e-05"; "0.0001"; "1000000000000000.0"; "1e+16";
     "-2.5"; "1.7976931348623157e+308"; "99396696141851.88"; "123456789.125";
     "0.3333333333333333"; "-0.0"; "inf"; "nan"].
Proof. vm_compute. reflexivity. Qed.

Example str_repr_escapes :
  str_repr ("a" ++ LF ++ "b\c") = "'a\nb\\c'"
  /\ str_repr (quoted "it's") = "'" ++ DQ ++ "it\'s" ++ DQ ++ "'".
Proof. split; reflexivity. Qed.

(** ** Runs of the further properties *)

Lemma load_access_token_padded_witness :
  load_access_token mcp_auth "auth_token " = None
  /\ load_access_token mcp_auth "Bearer auth_token" = None.
Proof.
  split.
  - apply (load_access_token_padded mcp_auth " "). discriminate.
  - apply (load_access_token_padded mcp_auth "Bearer "). discriminate.
Defined.

Lemma add_numbers_nan_witness :
  add_numbers nan 1
  = [mkTextContent "text" "The sum of nan and 1.0 is nan"].
Proof.
  apply (add_numbers_nan (R := cpython) nan 1). left. reflexivity.
Defined.

Lemma generate_meme_body_not_object_witness :
  generate_meme (R := cpython) (answering empty_array) "cats" 0 []
  = (Returned [mkTextContent "text"
                 "Exception occurred: 'list' object has no attribute 'get'"],
     [meme_request "cats" 0]).
Proof.
  apply (generate_meme_body_not_object (R := cpython) (answering empty_array) "cats" 0 []
           empty_array (PyList [])); try reflexivity.
  discriminate.
Defined.

Lemma generate_meme_no_memeUrl_witness :
  generate_meme (R := cpython) (answering success_only) "cats" 0 []
  = (Returned [mkTextContent "text" "Exception occurred: 'memeUrl'"],
     [meme_request "cats" 0]).
Proof.
  apply (generate_meme_no_memeUrl (R := cpython) (answering success_only) "cats" 0 []
           success_only [("success", PyBool true)]);
    reflexivity.
Defined.

Lemma generate_meme_article_not_object_witness :
  generate_meme (R := cpython) (answering null_article) "cats" 0 []
  = (Returned [mkTextContent "text"
                 "Exception occurred: 'NoneType' object has no attribute 'get'"],
     [meme_request "cats" 0]).
Proof.
  apply (generate_meme_article_not_object (R := cpython) (answering null_article)
           "cats" 0 [] null_article
           [("success", PyBool true); ("memeUrl", PyStr "U"); ("article", PyNone)]
           (PyStr "U") PyNone);
    try reflexivity.
  discriminate.
Defined.

Lemma generate_meme_caption_not_object_witness :
  generate_meme (R := cpython) (answering null_caption) "cats" 0 []
  = (Returned [mkTextContent "text"
                 "Exception occurred: 'NoneType' object has no attribute 'get'"],
     [meme_request "cats" 0]).
Proof.
  apply (generate_meme_caption_not_object (R := cpython) (answering null_caption)
           "cats" 0 [] null_caption null_caption_body [("title", PyStr "T")]
           (PyStr "U") PyNone);
    try reflexivity.
  discriminate.
Defined.

Lemma generate_meme_lets_through_witness :
  generate_meme (R := cpython) (failing cancelled) "cats" 0 []
  = (Raised cancelled, [meme_request "cats" 0]).
Proof.
  apply (generate_meme_lets_through (R := cpython) (failing cancelled) "cats" 0 []
           cancelled).
  - reflexivity.
  - left. reflexivity.
Defined.

Lemma generate_meme_block_only_on_success_witness :
  exists resp d,
    answering full_success (meme_request "cats" 0) = Returned resp
    /\ status resp = 200%Z
    /\ read_json resp = Returned (PyDict d)
    /\ truthy (dict_get d "success" PyNone) = true
    /\ dict_lookup "memeUrl" d <> None.
Proof.
  apply (generate_meme_block_only_on_success (R := cpython) (answering full_success)
           "cats" 0 [] (meme_block "cats" "T" "D" "X" "Y" "U")).
  - reflexivity.
  - now exists "T", "D", "X", "Y", "U".
Defined.

Lemma generate_meme_failure_prefixes_witness :
  exists resp,
    answering server_error (meme_request "cats" 0) = Returned resp
    /\ status resp <> 200%Z
    /\ read_text resp = Returned "Internal Server Error".
Proof.
  destruct (generate_meme_failure_prefixes (R := cpython) (answering server_error)
              "cats" 0 [] "API request failed: Internal Server Error" eq_refl)
    as [Hapi _].
  exact (Hapi "Internal Server Error" eq_refl).
Defined.

Lemma generate_meme_reads_five_keys_witness :
  generate_meme (R := cpython) (answering url_only) "cats" 0 []
  = generate_meme (R := cpython) (answering url_only_padded) "cats" 0 [].
Proof.
  apply (generate_meme_reads_five_keys (R := cpython) (answering url_only)
           (answering url_only_padded) "cats" 0 [] url_only url_only_padded
           url_only_body url_only_padded_body);
    try reflexivity.
  intros k [<- | [<- | [<- | [<- | [<- | []]]]]]; reflexivity.
Defined.

Lemma generate_meme_ignores_status_code_witness :
  generate_meme (R := cpython) (answering server_error) "cats" 0 []
  = generate_meme (R := cpython) (answering not_found) "cats" 0 [].
Proof.
  apply (generate_meme_ignores_status_code (R := cpython) (answering server_error)
           (answering not_found) "cats" 0 [] server_error not_found);
    try reflexivity; simpl; lia.
Defined.
